(** * Annotation session state of reflex_railway_deployment/state.py

    A shallow embedding of the video part of [State] (fields [video_url],
    [video_error], [current_time], [fps], the handlers [validate_video_url],
    [set_video_url], [update_progress], [set_fps] and the computed var
    [current_frame]) together with the parts of the Python runtime those
    handlers call: [int(str)], multiplication of a float by an int and
    truncation [int(float)], [urllib.parse.urlparse] and the [ipaddress]
    check [urlsplit] runs on bracketed hosts (CPython 3.12).  Also
    embedded: the parts of the page (pages/index.py) that the state decides,
    the settings config.py reads from the environment, and the database
    line rxconfig.py prints.

    Python strings are modelled as Rocq [string]s, i.e. sequences of code
    points below 256 (Latin-1).  Python floats are IEEE binary64 values
    [m * 2^e]; their products are rounded to nearest, ties to even. *)

From Stdlib Require Import ZArith QArith Qround String Ascii List Bool Lia.
Import ListNotations.
Set Warnings "-register-all".
Open Scope string_scope.
Open Scope Z_scope.

(** ** Characters and strings *)
Module PyStr.

Definition code (c : ascii) : Z := Z.of_nat (nat_of_ascii c).

Definition is_digit (c : ascii) : bool := (48 <=? code c) && (code c <=? 57).
Definition digit_val (c : ascii) : Z := code c - 48.
Definition is_ascii_upper (c : ascii) : bool := (65 <=? code c) && (code c <=? 90).
Definition is_ascii_lower (c : ascii) : bool := (97 <=? code c) && (code c <=? 122).
Definition is_ascii_alpha (c : ascii) : bool := is_ascii_upper c || is_ascii_lower c.
Definition is_hex_digit (c : ascii) : bool :=
  is_digit c || ((97 <=? code c) && (code c <=? 102))
             || ((65 <=? code c) && (code c <=? 70)).

(** [str.lower] on Latin-1: A-Z and the upper-case letters U+00C0..U+00DE
    (U+00D7 is the multiplication sign) move 32 code points up. *)
Definition lower_char (c : ascii) : ascii :=
  if is_ascii_upper c || ((192 <=? code c) && (code c <=? 222) && negb (code c =? 215))
  then ascii_of_nat (nat_of_ascii c + 32) else c.

Fixpoint lower (s : string) : string :=
  match s with
  | EmptyString => EmptyString
  | String c r => String (lower_char c) (lower r)
  end.

Fixpoint contains (c : ascii) (s : string) : bool :=
  match s with
  | EmptyString => false
  | String d r => Ascii.eqb c d || contains c r
  end.

Fixpoint forall_chars (p : ascii -> bool) (s : string) : bool :=
  match s with
  | EmptyString => true
  | String d r => p d && forall_chars p r
  end.

(** [s.endswith(suf)] *)
Definition endswith (s suf : string) : bool :=
  let n := String.length s in
  let k := String.length suf in
  (k <=? n)%nat && String.eqb (substring (n - k) k s) suf.

(** [s.startswith(pre)] *)
Definition startswith (s pre : string) : bool :=
  String.eqb (substring 0 (String.length pre) s) pre.

(** [s.partition(c)]: the text before the first [c], whether [c] occurs,
    and the text after it. *)
Fixpoint partition (c : ascii) (s : string) : string * bool * string :=
  match s with
  | EmptyString => ("", false, "")
  | String d r =>
      if Ascii.eqb c d then ("", true, r)
      else let '(b, f, a) := partition c r in (String d b, f, a)
  end.

(** [s.rpartition(c)]: split at the last [c]; ["", False, s] without one. *)
Fixpoint rpartition (c : ascii) (s : string) : string * bool * string :=
  match s with
  | EmptyString => ("", false, "")
  | String d r =>
      match rpartition c r with
      | (b, true, a) => (String d b, true, a)
      | (_, false, _) => if Ascii.eqb c d then ("", true, r) else ("", false, s)
      end
  end.

(** [s.split(c)] *)
Fixpoint split (c : ascii) (s : string) : list string :=
  match s with
  | EmptyString => [""]
  | String d r =>
      if Ascii.eqb c d then "" :: split c r
      else match split c r with
           | w :: ws => String d w :: ws
           | [] => [String d ""]
           end
  end.

(** Split before the first character satisfying [p]: [(s[:i], s[i:])]. *)
Fixpoint break (p : ascii -> bool) (s : string) : string * string :=
  match s with
  | EmptyString => ("", "")
  | String d r =>
      if p d then ("", s) else let '(b, a) := break p r in (String d b, a)
  end.

Fixpoint lstrip (p : ascii -> bool) (s : string) : string :=
  match s with
  | EmptyString => EmptyString
  | String d r => if p d then lstrip p r else s
  end.

Fixpoint remove_chars (p : ascii -> bool) (s : string) : string :=
  match s with
  | EmptyString => EmptyString
  | String d r => if p d then remove_chars p r else String d (remove_chars p r)
  end.

(** [s * n] for a string [s] and an int [n] ([""] when [n <= 0]). *)
Fixpoint repeat_nat (s : string) (n : nat) : string :=
  match n with
  | O => ""
  | S k => s ++ repeat_nat s k
  end.

Definition repeat (s : string) (n : Z) : string := repeat_nat s (Z.to_nat n).

End PyStr.

(** ** [int(s)] for a string [s] and [str(n)] for an int [n] *)
Module PyInt.
Import PyStr.

(** [sys.get_int_max_str_digits()] at its default. *)
Definition max_str_digits : Z := 4300.

(** [Py_ISSPACE]: the ASCII white space [PyLong_FromString] skips. *)
Definition is_c_space (c : ascii) : bool :=
  ((9 <=? code c) && (code c <=? 13)) || (code c =? 32).

(** [_PyUnicode_TransformDecimalAndSpaceToASCII]: code points below 127 are
    kept, Unicode white space (U+0085, U+00A0 in Latin-1) becomes a space,
    and any other code point (Latin-1 has no other decimal digit) ends the
    buffer with a ['?'], which no later step accepts. *)
Fixpoint transform (l : list ascii) : option (list ascii) :=
  match l with
  | [] => Some []
  | c :: r =>
      match transform r with
      | None => None
      | Some r' =>
          if code c <? 127 then Some (c :: r')
          else if (code c =? 133) || (code c =? 160) then Some (" "%char :: r')
          else None
      end
  end.

(** The digit loop of [long_from_string_base] for base 10: digits and single
    underscores between digits; returns the value, the number of digits (not
    counting underscores) and the rest of the buffer. *)
Fixpoint scan_digits (prev_us : bool) (acc ndig : Z) (l : list ascii)
  : option (Z * Z * list ascii) :=
  match l with
  | c :: r =>
      if is_digit c then scan_digits false (acc * 10 + digit_val c) (ndig + 1) r
      else if Ascii.eqb c "_" then (if prev_us then None else scan_digits true acc ndig r)
      else if prev_us then None else Some (acc, ndig, l)
  | [] => if prev_us then None else Some (acc, ndig, [])
  end.

Fixpoint skip_while (p : ascii -> bool) (l : list ascii) : list ascii :=
  match l with
  | c :: r => if p c then skip_while p r else l
  | [] => []
  end.

(** The optional sign [PyLong_FromString] reads after the white space. *)
Definition parse_sign (l : list ascii) : Z * list ascii :=
  match l with
  | c :: r => if Ascii.eqb c "+" then (1, r)
              else if Ascii.eqb c "-" then (-1, r) else (1, l)
  | [] => (1, l)
  end.

(** [long_from_string_base] for base 10 on the text after the sign: a
    digit first (neither empty nor a leading underscore), then only trailing
    white space, and at most [max_str_digits] digits. *)
Definition long_from_string_base (l : list ascii) : option Z :=
  match l with
  | c :: _ =>
      if is_digit c then
        match scan_digits false 0 0 l with
        | Some (v, ndig, rest) =>
            if forallb is_c_space rest && (ndig <=? max_str_digits) then Some v else None
        | None => None
        end
      else None
  | [] => None
  end.

(** [int(s)]: [None] stands for the [ValueError] it raises. *)
Definition py_int (s : string) : option Z :=
  match transform (list_ascii_of_string s) with
  | None => None
  | Some l =>
      let '(sign, l2) := parse_sign (skip_while is_c_space l) in
      match long_from_string_base l2 with
      | Some v => Some (sign * v)
      | None => None
      end
  end.

(** One step of the digit loop's accumulation. *)
Definition digit_fold (acc : Z) (c : ascii) : Z := acc * 10 + digit_val c.

(** The decimal digits of [n >= 0], most significant first, in front of
    [acc]; [fuel] bounds the number of digits. *)
Fixpoint digits_aux (fuel : nat) (n : Z) (acc : list ascii) : list ascii :=
  match fuel with
  | O => acc
  | S f =>
      if n <? 10 then ascii_of_nat (Z.to_nat (n + 48)) :: acc
      else digits_aux f (n / 10) (ascii_of_nat (Z.to_nat (n mod 10 + 48)) :: acc)
  end.

(** The decimal string of an integer, as [str(n)] writes it. *)
Definition decimal_string (n : Z) : string :=
  let m := Z.abs n in
  let ds := string_of_list_ascii (digits_aux (S (Z.to_nat (Z.log2 m))) m []) in
  if n <? 0 then String "-" ds else ds.

End PyInt.

(** ** Python floats: binary64 values [m * 2^e] *)
Module PyFloat.

(** Round [n * 2^e] to a binary64 value, to nearest with ties to even: keep
    53 significant bits, and no bit below [2^-1074] (subnormals).  The result
    may be too large to be finite; see [overflows]. *)
Definition round_ne (n e : Z) : Z * Z :=
  let a := Z.abs n in
  let s := Z.max (Z.log2 a + 1 - 53) (-1074 - e) in
  if s <=? 0 then (n, e)
  else
    let q := Z.shiftr a s in
    let r := a - Z.shiftl q s in
    let h := Z.shiftl 1 (s - 1) in
    let q' := if (h <? r) || ((r =? h) && Z.odd q) then q + 1 else q in
    (Z.sgn n * q', e + s).

(** [|m * 2^e| >= 2^1024]: the value is not a finite double. *)
Definition overflows (m e : Z) : bool :=
  (0 <=? e) && (2 ^ 1024 <=? Z.abs m * 2 ^ e).

(** [float(n)] for an int [n]; [None] is the [OverflowError] it raises. *)
Definition of_int (n : Z) : option (Z * Z) :=
  let '(m, e) := round_ne n 0 in
  if overflows m e then None else Some (m, e).

(** [a * b] for two floats; [None] is an infinite result. *)
Definition mul (ma ea mb eb : Z) : option (Z * Z) :=
  let '(m, e) := round_ne (ma * mb) (ea + eb) in
  if overflows m e then None else Some (m, e).

(** [int(x)] for a finite float: truncation toward zero. *)
Definition trunc (m e : Z) : Z :=
  if 0 <=? e then m * 2 ^ e else Z.quot m (2 ^ (- e)).

(** The exact value of [m * 2^e]. *)
Definition to_Q (m e : Z) : Q :=
  if 0 <=? e then inject_Z (m * 2 ^ e) else m # Z.to_pos (2 ^ (- e)).

End PyFloat.

(** ** Python values reaching the handlers (decoded JSON event payloads) *)
Inductive pyval : Type :=
| PNone
| PBool (b : bool)
| PInt (z : Z)
| PFloat (m e : Z)                     (* the float m * 2^e *)
| PStr (s : string)
| PList (l : list pyval)
| PDict (items : list (string * pyval)). (* a dict's items; keys distinct *)

Fixpoint dict_lookup (k : string) (items : list (string * pyval)) : option pyval :=
  match items with
  | [] => None
  | (k', v) :: r => if String.eqb k k' then Some v else dict_lookup k r
  end.

(** [v[k]] for a string key [k]: [inl msg] is the [KeyError] or [TypeError]
    raised, [msg] being [str] of the exception. *)
Definition py_getitem (v : pyval) (k : string) : string + pyval :=
  match v with
  | PDict items =>
      match dict_lookup k items with
      | Some x => inr x
      | None => inl ("'" ++ k ++ "'")
      end
  | PList _ => inl "list indices must be integers or slices, not str"
  | PStr _ => inl "string indices must be integers, not 'str'"
  | PNone => inl "'NoneType' object is not subscriptable"
  | PBool _ => inl "'bool' object is not subscriptable"
  | PInt _ => inl "'int' object is not subscriptable"
  | PFloat _ _ => inl "'float' object is not subscriptable"
  end.

(** [v >= 0] where Python compares; a [TypeError] (non-numbers) counts as
    false. *)
Definition py_ge0 (v : pyval) : bool :=
  match v with
  | PBool _ => true
  | PInt z => 0 <=? z
  | PFloat m _ => 0 <=? m
  | _ => false
  end.

(** ** [ipaddress], as [urlsplit] uses it on a bracketed host *)
Module IpAddress.
Import PyStr.

Definition digits_value (s : string) : Z :=
  fold_left (fun acc c => acc * 10 + digit_val c) (list_ascii_of_string s) 0.

(** [IPv4Address._parse_octet] succeeds. *)
Definition octet_ok (o : string) : bool :=
  negb (String.eqb o "") && forall_chars is_digit o
  && (String.length o <=? 3)%nat
  && (String.eqb o "0" || negb (startswith o "0"))
  && (digits_value o <=? 255).

(** [IPv4Address(s)] succeeds. *)
Definition ipv4_ok (s : string) : bool :=
  negb (contains "/" s) && negb (String.eqb s "")
  && (let octs := split "." s in (List.length octs =? 4)%nat && forallb octet_ok octs).

(** [IPv6Address._parse_hextet] succeeds ([int("", 16)] fails). *)
Definition hextet_ok (h : string) : bool :=
  forall_chars is_hex_digit h && (String.length h <=? 4)%nat && negb (String.eqb h "").

(** The indices [i] in [1 .. len parts - 2] with [parts[i] == ""]. *)
Definition inner_empty (parts : list string) : list nat :=
  let n := List.length parts in
  List.filter (fun i => String.eqb (nth i parts "x") "") (List.seq 1 (n - 2)).

Definition hextet_count : nat := 8.

(** [IPv6Address._ip_int_from_string] succeeds. *)
Definition ipv6_int_ok (ip : string) : bool :=
  if String.eqb ip "" then false else
  let parts0 := split ":" ip in
  if (List.length parts0 <? 3)%nat then false else
  let last0 := last parts0 "" in
  let parts :=
    if contains "." last0 then
      (* the IPv4 suffix becomes two hextets, always well formed *)
      if ipv4_ok last0 then Some (app (removelast parts0) ["0"; "0"]) else None
    else Some parts0 in
  match parts with
  | None => false
  | Some parts =>
      let n := List.length parts in
      if (hextet_count + 1 <? n)%nat then false else
      match inner_empty parts with
      | [i] =>
          let hi := if String.eqb (hd "" parts) "" then (i - 1)%nat else i in
          let lo := if String.eqb (last parts "") "" then (n - i - 2)%nat else (n - i - 1)%nat in
          let hi_ok := if String.eqb (hd "" parts) "" then (i =? 1)%nat else true in
          let lo_ok := if String.eqb (last parts "") "" then (n - i - 1 =? 1)%nat else true in
          hi_ok && lo_ok && (hi + lo <? hextet_count)%nat
          && forallb hextet_ok (firstn hi parts)
          && forallb hextet_ok (skipn (n - lo) parts)
      | [] =>
          (n =? hextet_count)%nat && negb (String.eqb (hd "" parts) "")
          && negb (String.eqb (last parts "") "") && forallb hextet_ok parts
      | _ => false
      end
  end.

(** [IPv6Address(s)] succeeds: no ['/'], a well formed [%scope] suffix. *)
Definition ipv6_ok (s : string) : bool :=
  negb (contains "/" s)
  && (let '(addr, sep, scope) := partition "%" s in
      (negb sep || (negb (String.eqb scope "") && negb (contains "%" scope)))
      && ipv6_int_ok addr).

(** [re.match(r"\Av[a-fA-F0-9]+\..+\Z", h)] *)
Definition ipvfuture_ok (h : string) : bool :=
  match h with
  | String v r =>
      Ascii.eqb v "v" &&
      (let '(hx, rest) := break (fun c => negb (is_hex_digit c)) r in
       negb (String.eqb hx "") &&
       match rest with
       | String d tl => Ascii.eqb d "." && negb (String.eqb tl "") && negb (contains "010"%char tl)
       | EmptyString => false
       end)
  | EmptyString => false
  end.

(** [urllib.parse._check_bracketed_host]: [Some msg] is the [ValueError]
    raised (the [repr] of the host is written with single quotes). *)
Definition check_bracketed_host (h : string) : option string :=
  if startswith h "v" then
    if ipvfuture_ok h then None else Some "IPvFuture address is invalid"
  else if ipv4_ok h then Some "An IPv4 address cannot be in brackets"
  else if ipv6_ok h then None
  else Some ("'" ++ h ++ "' does not appear to be an IPv4 or IPv6 address").

(** [urllib.parse._check_bracketed_netloc] *)
Definition check_bracketed_netloc (netloc : string) : option string :=
  let '(_, _, hp) := rpartition "@" netloc in
  let '(before, open_br, bracketed) := partition "[" hp in
  if open_br then
    if negb (String.eqb before "") then Some "Invalid IPv6 URL" else
    let '(host, _, port) := partition "]" bracketed in
    if negb (String.eqb port "") && negb (startswith port ":") then Some "Invalid IPv6 URL"
    else check_bracketed_host host
  else
    let '(host, _, _) := partition "]" hp in check_bracketed_host host.

End IpAddress.

(** ** [urllib.parse.urlsplit] and [urlparse] (CPython 3.12) *)
Module UrlParse.
Import PyStr.

Record split_result := SplitResult {
  scheme : string;
  netloc : string;
  path : string;
  query : string;
  fragment : string
}.

(** [_WHATWG_C0_CONTROL_OR_SPACE]: code points 0..32. *)
Definition is_c0_control_or_space (c : ascii) : bool := code c <=? 32.

(** [_UNSAFE_URL_BYTES_TO_REMOVE]: tab, carriage return, line feed. *)
Definition is_unsafe_url_byte (c : ascii) : bool :=
  (code c =? 9) || (code c =? 13) || (code c =? 10).

(** [scheme_chars]: ASCII letters, digits and [+-.]. *)
Definition is_scheme_char (c : ascii) : bool :=
  is_ascii_alpha c || is_digit c || (code c =? 43) || (code c =? 45) || (code c =? 46).

Definition is_netloc_delim (c : ascii) : bool :=
  Ascii.eqb c "/" || Ascii.eqb c "?" || Ascii.eqb c "#".

(** [url[0].isascii() and url[0].isalpha()] *)
Definition first_is_ascii_alpha (s : string) : bool :=
  match s with
  | String c _ => is_ascii_alpha c
  | EmptyString => false
  end.

(** [urlsplit(url)]; [inl msg] is the [ValueError] it raises.
    [_checknetloc] returns normally on every Latin-1 netloc: NFKC maps no
    code point below 256 to one of [/?#@:]. *)
Definition urlsplit (url0 : string) : string + split_result :=
  let url1 := remove_chars is_unsafe_url_byte (lstrip is_c0_control_or_space url0) in
  let '(sch, url2) :=
    match partition ":" url1 with
    | (before, true, after) =>
        if negb (String.eqb before "") && first_is_ascii_alpha before
           && forall_chars is_scheme_char before
        then (lower before, after) else ("", url1)
    | _ => ("", url1)
    end in
  let netloc_split :=
    if startswith url2 "//" then
      let '(nl, rest) := break is_netloc_delim (substring 2 (String.length url2 - 2) url2) in
      let has_open := contains "[" nl in
      let has_close := contains "]" nl in
      if (has_open && negb has_close) || (has_close && negb has_open)
      then inl "Invalid IPv6 URL"
      else if has_open && has_close then
        match IpAddress.check_bracketed_netloc nl with
        | Some msg => inl msg
        | None => inr (nl, rest)
        end
      else inr (nl, rest)
    else inr ("", url2) in
  match netloc_split with
  | inl msg => inl msg
  | inr (nl, url3) =>
      let '(url4, frag) :=
        if contains "#" url3 then let '(b, _, a) := partition "#" url3 in (b, a)
        else (url3, "") in
      let '(url5, qry) :=
        if contains "?" url4 then let '(b, _, a) := partition "?" url4 in (b, a)
        else (url4, "") in
      inr (SplitResult sch nl url5 qry frag)
  end.

(** [urlparse(url)]: [urlsplit] followed by the split of [;params] off the
    path, which leaves [scheme] and [netloc] as they are; only those two are
    read by the application, so the path is kept whole. *)
Definition urlparse (url : string) : string + split_result := urlsplit url.

End UrlParse.

(** ** The application state and its event handlers (state.py) *)
Module AppState.
Import PyStr.

Record State := mkState {
  video_url : string;
  video_error : string;
  current_time : pyval;
  fps : Z
}.

(** The class defaults: [video_url = ""], [video_error = ""],
    [current_time: float = 0], [fps = 60]. *)
Definition init_state : State := mkState "" "" (PInt 0) 60.

Definition with_video_url (st : State) (u : string) : State :=
  mkState u (video_error st) (current_time st) (fps st).
Definition with_video_error (st : State) (e : string) : State :=
  mkState (video_url st) e (current_time st) (fps st).
Definition with_current_time (st : State) (t : pyval) : State :=
  mkState (video_url st) (video_error st) t (fps st).
Definition with_fps (st : State) (f : Z) : State :=
  mkState (video_url st) (video_error st) (current_time st) f.

Definition video_extensions : list string := [".mp4"; ".webm"; ".ogg"; ".mov"].

(** [any(url.lower().endswith(ext) for ext in video_extensions)] *)
Definition has_video_extension (url : string) : bool :=
  existsb (fun ext => endswith (lower url) ext) video_extensions.

(** [validate_video_url(self, url)]: the new state and the returned bool. *)
Definition validate_video_url (self : State) (url : string) : State * bool :=
  if String.eqb url "" then (with_video_error self "Please enter a video URL", false)
  else
    match UrlParse.urlparse url with
    | inl msg => (with_video_error self ("Error validating URL: " ++ msg), false)
    | inr result =>
        if negb (negb (String.eqb (UrlParse.scheme result) "")
                 && negb (String.eqb (UrlParse.netloc result) "")) then
          (with_video_error self "Invalid URL format", false)
        else if negb (has_video_extension url) then
          (with_video_error self "URL must point to a video file (mp4, webm, ogg, mov)", false)
        else (self, true)
    end.

(** [set_video_url(self, url)] *)
Definition set_video_url (self : State) (url : string) : State :=
  let self := with_video_error self "" in
  let '(self, ok) := validate_video_url self url in
  if ok then with_video_url self url else with_video_url self "".

(** [update_progress(self, progress)] *)
Definition update_progress (self : State) (progress : pyval) : State :=
  match py_getitem progress "playedSeconds" with
  | inr t => with_current_time self t
  | inl msg => with_video_error self ("Error updating video progress: " ++ msg)
  end.

(** [set_fps(self, value)] *)
Definition set_fps (self : State) (value : string) : State :=
  match PyInt.py_int value with
  | None => with_video_error self "FPS must be a valid number"
  | Some f =>
      if f <=? 0 then with_video_error self "FPS must be greater than 0"
      else with_video_error (with_fps self f) ""
  end.

(** The computed var [current_frame]: [int(self.current_time * self.fps)];
    [None] is an exception ([TypeError], [ValueError], [OverflowError]). *)
Definition current_frame (self : State) : option Z :=
  match current_time self with
  | PInt t => Some (t * fps self)
  | PBool b => Some ((if b then 1 else 0) * fps self)
  | PFloat m e =>
      match PyFloat.of_int (fps self) with
      | None => None
      | Some (fm, fe) =>
          match PyFloat.mul m e fm fe with
          | None => None
          | Some (pm, pe) => Some (PyFloat.trunc pm pe)
          end
      end
  | PStr s => PyInt.py_int (repeat s (fps self))
  | PNone | PList _ | PDict _ => None
  end.

(** The events the page sends: [on_change] of the URL input, [on_progress]
    of the player, [on_change] of the FPS input. *)
Inductive event : Type :=
| SetVideoUrl (url : string)
| UpdateProgress (progress : pyval)
| SetFps (value : string).

Definition step (st : State) (ev : event) : State :=
  match ev with
  | SetVideoUrl u => set_video_url st u
  | UpdateProgress p => update_progress st p
  | SetFps v => set_fps st v
  end.

(** The state after handling [evs] in order. *)
Definition run (st : State) (evs : list event) : State := fold_left step evs st.

End AppState.

(** ** Predicates used to state properties of the handlers *)
Module Outcomes.
Import AppState.

(** The handler of [ev] fails its validation in state [st]: the URL is not
    accepted, [progress["playedSeconds"]] raises, or the FPS text is not a
    positive int. *)
Definition failed_validation (st : State) (ev : event) : bool :=
  match ev with
  | SetVideoUrl u => negb (snd (validate_video_url (with_video_error st "") u))
  | UpdateProgress p =>
      match py_getitem p "playedSeconds" with inl _ => true | inr _ => false end
  | SetFps v =>
      match PyInt.py_int v with None => true | Some n => n <=? 0 end
  end.

(** A progress event whose [playedSeconds] (when present) is a number
    [>= 0]; other events qualify trivially. *)
Definition played_seconds_nonneg (ev : event) : bool :=
  match ev with
  | UpdateProgress p =>
      match py_getitem p "playedSeconds" with inl _ => true | inr v => py_ge0 v end
  | _ => true
  end.

(** The exact value of a Python number. *)
Definition number_value (v : pyval) : Q :=
  match v with
  | PInt z => inject_Z z
  | PFloat m e => PyFloat.to_Q m e
  | PBool b => if b then 1%Q else 0%Q
  | _ => 0%Q
  end.

(** [t * f] is computed exactly by [current_frame]: an int [t] with [f] of at
    most [PyInt.max_str_digits] digits, or a finite float [m * 2^e >= 0]
    whose significand times [f] stays below [2^53]. *)
Definition exact_frame_product (t : pyval) (f : Z) : bool :=
  match t with
  | PInt _ => f <? 10 ^ PyInt.max_str_digits
  | PFloat m e =>
      (0 <=? m) && (m <? 2 ^ 53) && (-1074 <=? e) && (e <=? 971)
      && (f <? 2 ^ 53) && (m * f <? 2 ^ 53)
  | _ => false
  end.

End Outcomes.

(** ** The page (pages/index.py): which parts are rendered for a state *)
Module Page.
Import AppState.

(** The rendered nodes the state decides.  The annotation form, the table
    and the Hugging Face section read fields that state.py does not define;
    they stay opaque. *)
Inductive node : Type :=
| UrlInput (value : string)
| VideoPlayer (url : string)
| ErrorBox (text : string)
| FrameLabel (frame : option Z) (time : pyval)
| FpsInput (value : Z)
| Divider
| AnnotationForm
| AnnotationsTable
| HuggingFaceSection.

(** [create_error_message(error_text)]: [rx.cond(error_text != "", box)]. *)
Definition create_error_message (error_text : string) : list node :=
  if String.eqb error_text "" then [] else [ErrorBox error_text].

(** [create_video_player()] *)
Definition create_video_player (st : State) : list node :=
  VideoPlayer (video_url st)
  :: app (create_error_message (video_error st))
         [FrameLabel (current_frame st) (current_time st); FpsInput (fps st)].

(** [create_main_content()]: the URL input, then the player and the rest
    under [rx.cond(State.video_url != "", ...)]. *)
Definition create_main_content (st : State) : list node :=
  UrlInput (video_url st)
  :: (if String.eqb (video_url st) "" then []
      else app (create_video_player st)
               [Divider; AnnotationForm; AnnotationsTable; HuggingFaceSection]).


End Page.

(** ** Settings read from the environment (config.py, rxconfig.py) *)
Module Config.
Import PyStr.

(** [os.environ] after [load_dotenv()]: names and values, names distinct. *)
Definition environ := list (string * string).

Fixpoint getenv (env : environ) (k : string) : option string :=
  match env with
  | [] => None
  | (k', v) :: r => if String.eqb k k' then Some v else getenv r k
  end.

(** [os.getenv(k, d)] *)
Definition getenv_d (env : environ) (k d : string) : string :=
  match getenv env k with Some v => v | None => d end.

(** [os.getenv(k) or rest]: [None] and [""] are falsy. *)
Definition getenv_or (env : environ) (k rest : string) : string :=
  match getenv env k with
  | Some v => if String.eqb v "" then rest else v
  | None => rest
  end.

(** Code points of a string. *)
Definition cps (s : string) : list Z := List.map code (list_ascii_of_string s).

(** [str.upper] on one code point.  Below 256 this is Python's full
    upper-case mapping of Latin-1 (U+00DF becomes "SS", U+00B5 becomes
    U+039C, U+00FF becomes U+0178); the only code points above 255 met here
    are U+039C and U+0178, already upper case. *)
Definition cp_upper (c : Z) : list Z :=
  if (97 <=? c) && (c <=? 122) then [c - 32]
  else if c =? 181 then [924]
  else if c =? 223 then [83; 83]
  else if (224 <=? c) && (c <=? 254) && negb (c =? 247) then [c - 32]
  else if c =? 255 then [376]
  else [c].

(** [s.upper()], as code points. *)
Definition upper_cps (l : list Z) : list Z := flat_map cp_upper l.

(** [==] on two strings, as code points. *)
Fixpoint list_Z_eqb (a b : list Z) : bool :=
  match a, b with
  | [], [] => true
  | x :: a', y :: b' => (x =? y) && list_Z_eqb a' b'
  | _, _ => false
  end.

(** [ADMIN_USER_EMAILS = os.getenv("ADMIN_USER_EMAILS", "").split(",")] *)
Definition admin_user_emails (env : environ) : list string :=
  split "," (getenv_d env "ADMIN_USER_EMAILS" "").

(** [CLERK_AUTHORIZED_DOMAINS]: the comma list, then [FRONTEND_URL]'s raw
    value appended. *)
Definition clerk_authorized_domains (env : environ) : list string :=
  app (split "," (getenv_d env "CLERK_AUTHORIZED_DOMAINS" "localhost:3000,*"))
      [getenv_d env "FRONTEND_URL" ""].

(** [REFLEX_ENV_MODE = os.getenv("APP_ENV", "DEV").upper()] *)
Definition reflex_env_mode (env : environ) : list Z :=
  upper_cps (cps (getenv_d env "APP_ENV" "DEV")).

(** [LOG_LEVEL = os.getenv("LOG_LEVEL", "DEBUG" if REFLEX_ENV_MODE.upper()
    in ["DEV", "TEST", "Env.DEV"] else "INFO").upper()] *)
Definition log_level (env : environ) : list Z :=
  let m := upper_cps (reflex_env_mode env) in
  let default :=
    if existsb (fun lit => list_Z_eqb m (cps lit)) ["DEV"; "TEST"; "Env.DEV"]
    then "DEBUG" else "INFO" in
  upper_cps (cps (getenv_d env "LOG_LEVEL" default)).

(** [FRONTEND_URL]: the first non-empty of four variables, else the
    development default; then [https://] in front unless it starts with
    "http". *)
Definition frontend_url (env : environ) : string :=
  let u := getenv_or env "FRONTEND_DEPLOY_URL"
             (getenv_or env "RAILWAY_PUBLIC_DOMAIN"
               (getenv_or env "REFLEX_DEPLOY_URL"
                 (getenv_or env "DEPLOY_URL" "http://localhost:3000"))) in
  if negb (String.eqb u "") && negb (startswith u "http") then "https://" ++ u else u.

Section Database.
(** [s.format(DB_PASSWORD=p)]: [inl msg] is the exception it raises.  The
    format mini-language is left abstract. *)
Variable format_db_password : string -> string -> string + string.

(** [DATABASE_URL]: [inl msg] when computing [DB_CONN_URI] raises (the
    module then fails to import). *)
Definition database_url (env : environ) : string + string :=
  let db_password := getenv env "DB_PASSWORD" in
  let db_conn_uri :=
    match db_password with
    | Some pw =>
        if String.eqb pw "" then inr (getenv_d env "REFLEX_DB_URL" "")
        else format_db_password (getenv_d env "REFLEX_DB_URL" "") pw
    | None => inr (getenv_d env "REFLEX_DB_URL" "")
    end in
  let db_local_uri := getenv_d env "REFLEX_DB_URL" "sqlite:///app.db" in
  match db_conn_uri with
  | inl msg => inl msg
  | inr conn => inr (if list_Z_eqb (reflex_env_mode env) (cps "DEV") then db_local_uri else conn)
  end.
End Database.

(** [s.split(sep)[0]] for a non-empty [sep]: the text before the first
    occurrence of [sep], or all of [s]. *)
Fixpoint before_first (sep s : string) : string :=
  if String.prefix sep s then ""
  else match s with
       | EmptyString => ""
       | String c r => String c (before_first sep r)
       end.

(** The line rxconfig.py prints about the database URL. *)
Definition db_log_line (database_url : string) : string :=
  "Configuring Reflex with database URL: " ++ before_first "://" database_url
  ++ "://<hidden>".

End Config.

(** * Properties *)

(** ** [int(s)] and [str(n)] *)
Section IntParsing.
Import PyStr PyInt.

Example py_int_examples : List.map py_int ["42"; " -0_07 "; "1__0"; "_1"; "1_"; "30.5"; "abc"; "+ 5"; "0"; "-3"; String (ascii_of_nat 160) "12"]
  = [Some 42; Some (-7); None; None; None; None; None; None; Some 0; Some (-3); Some 12].
Proof. vm_compute. reflexivity. Qed.
Example decimal_string_examples : List.map decimal_string [0; 7; 10; 99; 12345; -60] = ["0"; "7"; "10"; "99"; "12345"; "-60"].
Proof. vm_compute. reflexivity. Qed.

Lemma code_ascii_of_Z (k : Z) : 0 <= k < 256 -> code (ascii_of_nat (Z.to_nat k)) = k.
Proof.
  intros Hk. unfold code. rewrite nat_ascii_embedding by lia. lia.
Qed.

Lemma transform_low (l : list ascii) :
  Forall (fun c => code c < 127) l -> transform l = Some l.
Proof.
  induction 1 as [|c r Hc _ IH]; [reflexivity|].
  simpl. rewrite IH. apply Z.ltb_lt in Hc. now rewrite Hc.
Qed.

Lemma scan_digits_all (ds : list ascii) (acc n : Z) :
  Forall (fun c => is_digit c = true) ds ->
  scan_digits false acc n ds = Some (fold_left digit_fold ds acc, n + Z.of_nat (length ds), []).
Proof.
  intros H; revert acc n; induction H as [|c r Hc _ IH]; intros acc n.
  - simpl. now rewrite Z.add_0_r.
  - simpl. rewrite Hc, IH. f_equal. f_equal. f_equal. lia.
Qed.

Lemma digit_char_spec (d : Z) : 0 <= d < 10 ->
  is_digit (ascii_of_nat (Z.to_nat (d + 48))) = true /\
  digit_val (ascii_of_nat (Z.to_nat (d + 48))) = d.
Proof.
  intros Hd. unfold is_digit, digit_val.
  rewrite code_ascii_of_Z by lia. split; [apply andb_true_intro; split; apply Z.leb_le|]; lia.
Qed.

Lemma digits_aux_S (f : nat) (n : Z) (acc : list ascii) :
  digits_aux (S f) n acc =
  if n <? 10 then ascii_of_nat (Z.to_nat (n + 48)) :: acc
  else digits_aux f (n / 10) (ascii_of_nat (Z.to_nat (n mod 10 + 48)) :: acc).
Proof. reflexivity. Qed.

(** [digits_aux] writes the decimal digits of [n], at most [k] of them when
    [n < 10^k]. *)
Lemma digits_aux_spec (fuel : nat) : forall (n : Z) (acc : list ascii),
  0 <= n < 10 ^ Z.of_nat (S fuel) ->
  exists ds, digits_aux (S fuel) n acc = app ds acc /\ ds <> [] /\
    Forall (fun c => is_digit c = true) ds /\ fold_left digit_fold ds 0 = n /\
    (forall k, 1 <= k -> n < 10 ^ k -> Z.of_nat (length ds) <= k).
Proof.
  induction fuel as [|fuel IH]; intros n acc Hn.
  - change (10 ^ Z.of_nat 1) with 10 in Hn.
    rewrite digits_aux_S. replace (n <? 10) with true by (symmetry; apply Z.ltb_lt; lia).
    destruct (digit_char_spec n) as [Hd Hv]; [lia|].
    exists [ascii_of_nat (Z.to_nat (n + 48))]. repeat split.
    + discriminate.
    + now constructor.
    + simpl. unfold digit_fold. rewrite Hv. lia.
    + intros k Hk _. simpl. lia.
  - rewrite digits_aux_S. destruct (Z.ltb_spec n 10) as [Hlt|Hge].
    + destruct (digit_char_spec n) as [Hd Hv]; [lia|].
      exists [ascii_of_nat (Z.to_nat (n + 48))]. repeat split.
      * discriminate.
      * now constructor.
      * simpl. unfold digit_fold. rewrite Hv. lia.
      * intros k Hk _. simpl. lia.
    + assert (Hq : 0 <= n / 10 < 10 ^ Z.of_nat (S fuel)).
      { split; [apply Z.div_pos; lia|].
        apply Z.div_lt_upper_bound; [lia|].
        replace (10 * 10 ^ Z.of_nat (S fuel)) with (10 ^ Z.of_nat (S (S fuel))); [lia|].
        rewrite !Nat2Z.inj_succ, (Z.pow_succ_r 10 (Z.succ _)); lia. }
      destruct (IH (n / 10) (ascii_of_nat (Z.to_nat (n mod 10 + 48)) :: acc) Hq)
        as (ds & Heq & Hne & Hall & Hval & Hlen).
      destruct (digit_char_spec (n mod 10)) as [Hd Hv]; [apply Z.mod_pos_bound; lia|].
      exists (app ds [ascii_of_nat (Z.to_nat (n mod 10 + 48))]). repeat split.
      * rewrite Heq, <- app_assoc. reflexivity.
      * destruct ds; [contradiction|discriminate].
      * apply Forall_app. split; [assumption|now constructor].
      * rewrite fold_left_app, Hval. simpl. unfold digit_fold. rewrite Hv.
        pose proof (Z.div_mod n 10). lia.
      * intros k Hk Hnk. rewrite length_app. simpl.
        assert (H1 : 1 <= k - 1).
        { destruct (Z.eq_dec k 1) as [->|]; [lia|lia]. }
        assert (H2 : n / 10 < 10 ^ (k - 1)).
        { apply Z.div_lt_upper_bound; [lia|].
          replace (10 * 10 ^ (k - 1)) with (10 ^ k); [lia|].
          rewrite <- Z.pow_succ_r by lia. f_equal. lia. }
        specialize (Hlen (k - 1) H1 H2). lia.
Qed.

Lemma digit_not_space (c : ascii) : is_digit c = true -> is_c_space c = false.
Proof.
  unfold is_digit, is_c_space. intros H.
  apply andb_true_iff in H as [H1 H2]. apply Z.leb_le in H1, H2.
  destruct (Z.leb_spec 9 (code c)), (Z.leb_spec (code c) 13), (Z.eqb_spec (code c) 32);
    simpl; try reflexivity; lia.
Qed.

Lemma digit_code_low (c : ascii) : is_digit c = true -> code c < 127.
Proof.
  unfold is_digit. intros H. apply andb_true_iff in H as [_ H]. apply Z.leb_le in H. lia.
Qed.

(** [int] reads back the decimal string of every positive int of at most
    [max_str_digits] digits. *)
Lemma py_int_decimal_string (f : Z) :
  0 < f < 10 ^ 4300 -> py_int (decimal_string f) = Some f.
Proof.
  intros [Hf Hf1]. unfold decimal_string.
  replace (Z.abs f) with f by (clear Hf1; lia).
  replace (f <? 0) with false by (symmetry; apply Z.ltb_ge; clear Hf1; lia).
  assert (Hlog := Z.log2_nonneg f).
  assert (Hbound : 0 <= f < 10 ^ Z.of_nat (S (Z.to_nat (Z.log2 f)))).
  { clear Hf1. split; [lia|]. rewrite Nat2Z.inj_succ, Z2Nat.id by lia.
    destruct (Z.log2_spec f) as [_ Hup]; [lia|].
    eapply Z.lt_le_trans; [exact Hup|]. apply Z.pow_le_mono_l. lia. }
  destruct (digits_aux_spec _ f [] Hbound) as (ds & Heq & Hne & Hall & Hval & Hlen).
  specialize (Hlen 4300 ltac:(apply Z.leb_le; reflexivity) Hf1). clear Hf1.
  rewrite Heq, app_nil_r. unfold py_int.
  rewrite list_ascii_of_string_of_list_ascii.
  rewrite transform_low
    by (eapply Forall_impl; [|exact Hall]; intros c Hc; now apply digit_code_low).
  destruct ds as [|c r]; [contradiction|].
  pose proof (Forall_inv Hall) as Hc; simpl in Hc.
  simpl skip_while. rewrite (digit_not_space c Hc).
  assert (Hsign : parse_sign (c :: r) = (1, c :: r)).
  { unfold parse_sign.
    destruct (Ascii.eqb_spec c "+") as [->|]; [discriminate|].
    destruct (Ascii.eqb_spec c "-") as [->|]; [discriminate|]. reflexivity. }
  rewrite Hsign. unfold long_from_string_base. rewrite Hc.
  rewrite (scan_digits_all _ _ _ Hall). simpl forallb.
  unfold max_str_digits. replace (0 + Z.of_nat (length (c :: r)) <=? 4300) with true
    by (symmetry; apply Z.leb_le; lia).
  rewrite Hval. simpl. destruct f; reflexivity.
Qed.

Lemma contains_In (c : ascii) (s : string) :
  contains c s = true -> In c (list_ascii_of_string s).
Proof.
  induction s as [|d r IH]; simpl; [discriminate|].
  intros H. apply orb_true_iff in H as [H|H].
  - left. apply Ascii.eqb_eq in H. now subst.
  - right. now apply IH.
Qed.

Lemma transform_In (l l' : list ascii) (c : ascii) :
  transform l = Some l' -> In c l -> code c < 127 -> In c l'.
Proof.
  revert l'; induction l as [|d r IH]; intros l' Ht Hin Hc; [destruct Hin|].
  simpl in Ht. destruct (transform r) as [r'|] eqn:Hr; [|discriminate].
  destruct Hin as [->|Hin].
  - apply Z.ltb_lt in Hc. rewrite Hc in Ht. injection Ht as <-. now left.
  - destruct (code d <? 127); [injection Ht as <-; right; now apply IH|].
    destruct (_ || _); [injection Ht as <-; right; now apply IH|discriminate].
Qed.

Lemma skip_while_split (p : ascii -> bool) (l : list ascii) :
  exists pre, l = app pre (skip_while p l) /\ Forall (fun x => p x = true) pre.
Proof.
  induction l as [|c r (pre & Heq & Hpre)].
  - now exists [].
  - simpl. destruct (p c) eqn:Hp.
    + exists (c :: pre). split; [simpl; now f_equal|now constructor].
    + now exists [].
Qed.

Lemma parse_sign_In (l l2 : list ascii) (sg : Z) (c : ascii) :
  parse_sign l = (sg, l2) -> In c l -> c <> "+"%char -> c <> "-"%char -> In c l2.
Proof.
  unfold parse_sign. destruct l as [|d r]; [intros _ []|].
  destruct (Ascii.eqb_spec d "+") as [->|Hp];
    [intros [= _ <-] [->|Hin] ? ?; [contradiction|assumption]|].
  destruct (Ascii.eqb_spec d "-") as [->|Hm];
    [intros [= _ <-] [->|Hin] ? ?; [contradiction|assumption]|].
  intros [= _ <-] Hin _ _. exact Hin.
Qed.

Lemma scan_digits_split (b : bool) (a n : Z) (l : list ascii) (v k : Z) (rest : list ascii) :
  scan_digits b a n l = Some (v, k, rest) ->
  exists pre, l = app pre rest /\
    Forall (fun x => (is_digit x || Ascii.eqb x "_") = true) pre.
Proof.
  revert b a n; induction l as [|c r IH]; intros b a n H.
  - simpl in H. destruct b; [discriminate|]. injection H as <- <- <-. now exists [].
  - simpl in H. destruct (is_digit c) eqn:Hd.
    + destruct (IH _ _ _ H) as (pre & -> & Hpre).
      exists (c :: pre). split; [reflexivity|]. constructor; [now rewrite Hd|exact Hpre].
    + destruct (Ascii.eqb c "_") eqn:Hu.
      * destruct b; [discriminate|].
        destruct (IH _ _ _ H) as (pre & -> & Hpre).
        exists (c :: pre). split; [reflexivity|]. constructor; [now rewrite Hu, orb_true_r|exact Hpre].
      * destruct b; [discriminate|]. injection H as <- <- <-. now exists [].
Qed.

Lemma long_from_string_base_no_dot (l : list ascii) (v : Z) :
  long_from_string_base l = Some v -> ~ In "."%char l.
Proof.
  unfold long_from_string_base. destruct l as [|c r]; [discriminate|].
  destruct (is_digit c); [|discriminate].
  destruct (scan_digits false 0 0 (c :: r)) as [[[v' k] rest]|] eqn:Hs; [|discriminate].
  destruct (forallb is_c_space rest) eqn:Hsp; [|discriminate].
  intros _ Hin.
  destruct (scan_digits_split _ _ _ _ _ _ _ Hs) as (pre & Heq & Hpre).
  rewrite Heq in Hin. apply in_app_or in Hin as [Hin|Hin].
  - rewrite Forall_forall in Hpre. specialize (Hpre _ Hin). discriminate Hpre.
  - rewrite forallb_forall in Hsp. specialize (Hsp _ Hin). discriminate Hsp.
Qed.

(** No string with a decimal point is accepted by [int]. *)
Lemma py_int_dot (s : string) : contains "." s = true -> py_int s = None.
Proof.
  intros Hdot. apply contains_In in Hdot.
  unfold py_int. destruct (transform _) as [l|] eqn:Ht; [|reflexivity].
  assert (Hl : In "."%char l) by (eapply transform_In; [exact Ht|exact Hdot|reflexivity]).
  destruct (skip_while_split is_c_space l) as (pre & Hsplit & Hpre).
  destruct (parse_sign (skip_while is_c_space l)) as [sg l2] eqn:Hsg.
  destruct (long_from_string_base l2) as [v|] eqn:Hv; [|reflexivity].
  exfalso. apply (long_from_string_base_no_dot _ _ Hv).
  apply (parse_sign_In _ _ _ _ Hsg); [|discriminate|discriminate].
  rewrite Hsplit in Hl. apply in_app_or in Hl as [Hin|Hin]; [|exact Hin].
  rewrite Forall_forall in Hpre. specialize (Hpre _ Hin). discriminate Hpre.
Qed.

End IntParsing.

(** ** The handlers *)
Section Handlers.
Import PyStr AppState Outcomes.

Lemma urlparse_empty : UrlParse.urlparse "" = inr (UrlParse.SplitResult "" "" "" "" "").
Proof. reflexivity. Qed.

(** [validate_video_url] changes no field but [video_error]. *)
Lemma validate_video_url_frame (st : State) (url : string) :
  video_url (fst (validate_video_url st url)) = video_url st /\
  current_time (fst (validate_video_url st url)) = current_time st /\
  fps (fst (validate_video_url st url)) = fps st.
Proof.
  unfold validate_video_url.
  destruct (String.eqb url ""); [auto|].
  destruct (UrlParse.urlparse url) as [msg|r]; [auto|].
  destruct (negb _); [auto|]. destruct (negb (has_video_extension url)); auto.
Qed.

Lemma has_video_extension_false (url : string) :
  (forall ext, In ext [".mp4"; ".webm"; ".ogg"; ".mov"] -> endswith (lower url) ext = false) ->
  has_video_extension url = false.
Proof.
  intros H. unfold has_video_extension.
  destruct (existsb _ _) eqn:E; [|reflexivity].
  apply existsb_exists in E as (ext & Hin & He). now rewrite H in He.
Qed.

Example set_fps_examples :
  fps (set_fps init_state "0") = 60 /\
  video_error (set_fps init_state "0") = "FPS must be greater than 0" /\
  fps (set_fps init_state "-3") = 60 /\
  video_error (set_fps init_state "-3") = "FPS must be greater than 0" /\
  video_error (set_fps init_state "abc") = "FPS must be a valid number" /\
  fps (set_fps init_state " 30 ") = 30.
Proof. repeat split; vm_compute; reflexivity. Qed.

(** C4: [set_fps] parses its text with [int]: a text [int] rejects leaves
    [fps] and sets "FPS must be a valid number"; an int [<= 0] leaves [fps]
    and sets "FPS must be greater than 0"; a positive int becomes [fps] and
    clears the error.  [set_fps] is total: it never raises. *)
Theorem set_fps_outcome (st : State) (value : string) :
  video_url (set_fps st value) = video_url st /\
  current_time (set_fps st value) = current_time st /\
  match PyInt.py_int value with
  | None => fps (set_fps st value) = fps st /\
            video_error (set_fps st value) = "FPS must be a valid number"
  | Some n =>
      if n <=? 0
      then fps (set_fps st value) = fps st /\
           video_error (set_fps st value) = "FPS must be greater than 0"
      else fps (set_fps st value) = n /\ video_error (set_fps st value) = ""
  end.
Proof.
  unfold set_fps. destruct (PyInt.py_int value) as [n|]; [destruct (n <=? 0)|]; simpl; auto.
Qed.

(** C10: [set_fps] rejects every text with a decimal point, also "60.0":
    [fps] is kept and the error is "FPS must be a valid number". *)
Theorem set_fps_rejects_decimal_point (st : State) (value : string) :
  contains "." value = true ->
  fps (set_fps st value) = fps st /\
  video_error (set_fps st value) = "FPS must be a valid number".
Proof.
  intros Hdot. unfold set_fps. rewrite (py_int_dot value Hdot). simpl. auto.
Qed.

Lemma set_fps_rejects_decimal_point_witness :
  contains "." "60.0" = true /\
  fps (set_fps init_state "60.0") = fps init_state /\
  video_error (set_fps init_state "60.0") = "FPS must be a valid number".
Proof.
  split; [reflexivity|]. apply set_fps_rejects_decimal_point. reflexivity.
Defined.

(** C6: [update_progress] reads [progress["playedSeconds"]]: when the key is
    there its value becomes [current_time]; on a dict without the key or on
    any non-dict payload the exception is absorbed, [current_time] is kept and
    [video_error] gets a non-empty message.  It never raises. *)
Theorem update_progress_outcome (st : State) (progress : pyval) :
  video_url (update_progress st progress) = video_url st /\
  fps (update_progress st progress) = fps st /\
  match progress with
  | PDict items =>
      match dict_lookup "playedSeconds" items with
      | Some v => current_time (update_progress st progress) = v
      | None => current_time (update_progress st progress) = current_time st /\
                video_error (update_progress st progress) <> ""
      end
  | _ => current_time (update_progress st progress) = current_time st /\
         video_error (update_progress st progress) <> ""
  end.
Proof.
  unfold update_progress.
  destruct progress as [| | | | |l|items]; simpl;
    try (repeat split; discriminate).
  destruct (dict_lookup "playedSeconds" items); simpl; repeat split; discriminate.
Qed.

(** C5: a successful [update_progress] does not clear [video_error]: after
    a payload without [playedSeconds], a well-formed progress report is
    stored but the old error stays, while [set_fps] with a valid value
    clears it. *)
Theorem update_progress_keeps_stale_error :
  video_error (update_progress init_state (PDict [])) =
    "Error updating video progress: 'playedSeconds'" /\
  current_time (update_progress (update_progress init_state (PDict []))
                  (PDict [("playedSeconds", PFloat 3 (-1))])) = PFloat 3 (-1) /\
  video_error (update_progress (update_progress init_state (PDict []))
                 (PDict [("playedSeconds", PFloat 3 (-1))])) =
    "Error updating video progress: 'playedSeconds'" /\
  video_error (set_fps (update_progress init_state (PDict [])) "30") = "".
Proof. repeat split; reflexivity. Qed.

(** C2: a text whose lower-case form ends in none of .mp4, .webm, .ogg,
    .mov is refused whatever the parse gives: [video_url] becomes [""] and
    [video_error] is not empty. *)
Theorem set_video_url_rejects_non_video (st : State) (url : string) :
  (forall ext, In ext [".mp4"; ".webm"; ".ogg"; ".mov"] -> endswith (lower url) ext = false) ->
  video_url (set_video_url st url) = "" /\ video_error (set_video_url st url) <> "".
Proof.
  intros H. pose proof (has_video_extension_false url H) as Hext.
  unfold set_video_url, validate_video_url.
  destruct (String.eqb url ""); [simpl; split; [reflexivity|discriminate]|].
  destruct (UrlParse.urlparse url) as [msg|r].
  - simpl. split; [reflexivity|discriminate].
  - destruct (negb _); [simpl; split; [reflexivity|discriminate]|].
    rewrite Hext. simpl. split; [reflexivity|discriminate].
Qed.

Lemma set_video_url_rejects_non_video_witness :
  video_url (set_video_url init_state "not a url") = "" /\
  video_error (set_video_url init_state "not a url") <> "".
Proof.
  apply set_video_url_rejects_non_video.
  intros ext [<-|[<-|[<-|[<-|[]]]]]; reflexivity.
Defined.

(** C3: a text that [urlparse] accepts with a non-empty scheme and netloc
    and whose lower-case form ends in a video extension is stored as it is,
    with an empty [video_error]. *)
Theorem set_video_url_accepts_video (st : State) (url : string) (r : UrlParse.split_result) :
  UrlParse.urlparse url = inr r ->
  UrlParse.scheme r <> "" -> UrlParse.netloc r <> "" ->
  (exists ext, In ext [".mp4"; ".webm"; ".ogg"; ".mov"] /\ endswith (lower url) ext = true) ->
  video_url (set_video_url st url) = url /\ video_error (set_video_url st url) = "".
Proof.
  intros Hp Hs Hn (ext & Hin & He).
  assert (Hext : has_video_extension url = true)
    by (apply existsb_exists; now exists ext).
  destruct (String.eqb_spec url "") as [->|Hne].
  { rewrite urlparse_empty in Hp. injection Hp as <-. contradiction. }
  unfold set_video_url, validate_video_url.
  apply String.eqb_neq in Hne, Hs, Hn.
  rewrite Hne, Hp, Hs, Hn, Hext. simpl. auto.
Qed.

Lemma set_video_url_accepts_video_witness :
  video_url (set_video_url init_state "https://example.com/video.mp4") =
    "https://example.com/video.mp4" /\
  video_error (set_video_url init_state "https://example.com/video.mp4") = "".
Proof.
  apply (set_video_url_accepts_video init_state "https://example.com/video.mp4"
           (UrlParse.SplitResult "https" "example.com" "/video.mp4" "" "")).
  - reflexivity.
  - discriminate.
  - discriminate.
  - exists ".mp4". split; [left; reflexivity|reflexivity].
Defined.

(** C7, as the code does it: a refused URL resets [video_url] to [""] (it
    does not keep the previous one); a failing [set_video_url], [set_fps] or
    [update_progress] keeps [current_time] and [fps], and only a refused URL
    touches [video_url]. *)
Theorem failing_event_frame (st : State) (ev : event) :
  failed_validation st ev = true ->
  current_time (step st ev) = current_time st /\ fps (step st ev) = fps st /\
  video_url (step st ev) = match ev with SetVideoUrl _ => "" | _ => video_url st end.
Proof.
  destruct ev as [u|p|v]; simpl.
  - unfold set_video_url.
    destruct (validate_video_url_frame (with_video_error st "") u) as (_ & Ht & Hf).
    destruct (validate_video_url (with_video_error st "") u) as [st' ok]. simpl in *.
    intros Hok. apply negb_true_iff in Hok. subst ok. simpl. auto.
  - unfold update_progress. destruct (py_getitem p "playedSeconds"); [|discriminate].
    simpl. auto.
  - unfold set_fps. destruct (PyInt.py_int v) as [n|]; [|simpl; auto].
    intros Hn. rewrite Hn. simpl. auto.
Qed.

Lemma failing_event_frame_witness :
  failed_validation init_state (SetFps "abc") = true /\
  current_time (step init_state (SetFps "abc")) = current_time init_state /\
  fps (step init_state (SetFps "abc")) = fps init_state /\
  video_url (step init_state (SetFps "abc")) = video_url init_state.
Proof.
  split; [reflexivity|]. apply (failing_event_frame init_state (SetFps "abc")). reflexivity.
Defined.

(** Refutes C7 as stated: a URL refused after a valid one does not leave the
    stored URL intact. *)
Lemma failing_set_video_url_clears_url :
  video_url (set_video_url init_state "https://example.com/video.mp4") =
    "https://example.com/video.mp4" /\
  video_error (set_video_url (set_video_url init_state "https://example.com/video.mp4")
                 "not a url") = "Invalid URL format" /\
  video_url (set_video_url (set_video_url init_state "https://example.com/video.mp4")
               "not a url") = "".
Proof. repeat split; vm_compute; reflexivity. Qed.

Lemma step_current_time (st : State) (ev : event) :
  match ev with UpdateProgress _ => True | _ => current_time (step st ev) = current_time st end.
Proof.
  destruct ev as [u|p|v]; simpl; [|exact I|].
  - unfold set_video_url.
    destruct (validate_video_url_frame (with_video_error st "") u) as (_ & Ht & _).
    destruct (validate_video_url (with_video_error st "") u) as [st' ok].
    simpl in Ht. destruct ok; exact Ht.
  - now destruct (set_fps_outcome st v) as (_ & Ht & _).
Qed.

Lemma run_nonneg (evs : list event) : forall st,
  py_ge0 (current_time st) = true ->
  forallb played_seconds_nonneg evs = true ->
  py_ge0 (current_time (run st evs)) = true.
Proof.
  induction evs as [|ev evs IH]; intros st Hst Hall; [exact Hst|].
  simpl in Hall. apply andb_true_iff in Hall as [Hev Hall].
  unfold run. simpl fold_left. apply IH; [|exact Hall].
  pose proof (step_current_time st ev) as Hstep.
  destruct ev as [u|p|v]; [rewrite Hstep; exact Hst| |rewrite Hstep; exact Hst].
  simpl in *. unfold update_progress.
  destruct (py_getitem p "playedSeconds"); simpl; [exact Hst|exact Hev].
Qed.

(** C8, as the code does it: [current_time] starts at [0] and only
    [update_progress] changes it, storing [playedSeconds] unchecked; it stays
    [>= 0] along every run whose progress reports carry no negative (or
    non-numeric) [playedSeconds]. *)
Theorem current_time_nonneg_if_reports_nonneg (evs : list event) :
  forallb played_seconds_nonneg evs = true ->
  py_ge0 (current_time (run init_state evs)) = true.
Proof. apply run_nonneg. reflexivity. Qed.

Lemma current_time_nonneg_if_reports_nonneg_witness :
  forallb played_seconds_nonneg
    [SetVideoUrl "https://example.com/video.mp4";
     UpdateProgress (PDict [("playedSeconds", PFloat 3 (-1))]); SetFps "30"] = true /\
  py_ge0 (current_time (run init_state
    [SetVideoUrl "https://example.com/video.mp4";
     UpdateProgress (PDict [("playedSeconds", PFloat 3 (-1))]); SetFps "30"])) = true.
Proof.
  split; [reflexivity|]. apply current_time_nonneg_if_reports_nonneg. reflexivity.
Defined.

(** Refutes C8 as stated: one progress report with [playedSeconds = -1.0]
    from the initial state gives [current_time = -1.0]. *)
Lemma negative_current_time_reachable :
  current_time (run init_state [UpdateProgress (PDict [("playedSeconds", PFloat (-1) 0)])])
    = PFloat (-1) 0 /\
  py_ge0 (current_time (run init_state
    [UpdateProgress (PDict [("playedSeconds", PFloat (-1) 0)])])) = false.
Proof. split; reflexivity. Qed.

(** C9, as the code does it: the extension test is a suffix test on the
    whole lower-cased text, not on the parsed path.  A URL with a scheme and
    a netloc whose text ends in no video extension (such as
    "https://example.com/v.mp4?t=5") is refused with "URL must point to a
    video file (mp4, webm, ogg, mov)" and [video_url = ""]. *)
Theorem set_video_url_suffix_check (st : State) (url : string) (r : UrlParse.split_result) :
  UrlParse.urlparse url = inr r ->
  UrlParse.scheme r <> "" -> UrlParse.netloc r <> "" ->
  (forall ext, In ext [".mp4"; ".webm"; ".ogg"; ".mov"] -> endswith (lower url) ext = false) ->
  video_url (set_video_url st url) = "" /\
  video_error (set_video_url st url) = "URL must point to a video file (mp4, webm, ogg, mov)".
Proof.
  intros Hp Hs Hn H. pose proof (has_video_extension_false url H) as Hext.
  destruct (String.eqb_spec url "") as [->|Hne].
  { rewrite urlparse_empty in Hp. injection Hp as <-. contradiction. }
  unfold set_video_url, validate_video_url.
  apply String.eqb_neq in Hne, Hs, Hn.
  rewrite Hne, Hp, Hs, Hn, Hext. simpl. auto.
Qed.

Lemma set_video_url_suffix_check_witness :
  video_url (set_video_url init_state "https://example.com/v.mp4?t=5") = "" /\
  video_error (set_video_url init_state "https://example.com/v.mp4?t=5") =
    "URL must point to a video file (mp4, webm, ogg, mov)".
Proof.
  apply (set_video_url_suffix_check init_state "https://example.com/v.mp4?t=5"
           (UrlParse.SplitResult "https" "example.com" "/v.mp4" "t=5" "")).
  - reflexivity.
  - discriminate.
  - discriminate.
  - intros ext [<-|[<-|[<-|[<-|[]]]]]; reflexivity.
Defined.

(** Refutes C9 as stated: a path ending in .mp4 followed by a non-empty
    query that itself ends in .mp4 is accepted. *)
Lemma query_ending_in_extension_accepted :
  UrlParse.urlparse "https://example.com/v.mp4?t=x.mp4" =
    inr (UrlParse.SplitResult "https" "example.com" "/v.mp4" "t=x.mp4" "") /\
  video_url (set_video_url init_state "https://example.com/v.mp4?t=x.mp4") =
    "https://example.com/v.mp4?t=x.mp4" /\
  video_error (set_video_url init_state "https://example.com/v.mp4?t=x.mp4") = "".
Proof. repeat split; vm_compute; reflexivity. Qed.

Lemma round_ne_exact (n e : Z) :
  Z.abs n < 2 ^ 53 -> -1074 <= e -> PyFloat.round_ne n e = (n, e).
Proof.
  intros Hn He. unfold PyFloat.round_ne.
  assert (Hlog : Z.log2 (Z.abs n) < 53).
  { destruct (Z.eq_dec (Z.abs n) 0) as [->|Hnz]; [simpl; lia|].
    apply Z.log2_lt_pow2; lia. }
  replace (Z.max (Z.log2 (Z.abs n) + 1 - 53) (-1074 - e) <=? 0) with true
    by (symmetry; apply Z.leb_le; lia).
  reflexivity.
Qed.

Lemma overflows_small (m e : Z) :
  Z.abs m < 2 ^ 53 -> e <= 971 -> PyFloat.overflows m e = false.
Proof.
  intros Hm He. unfold PyFloat.overflows.
  destruct (Z.leb_spec 0 e) as [He0|]; [|reflexivity]. simpl.
  apply Z.leb_gt.
  assert (H1 : 2 ^ e <= 2 ^ 971) by (apply Z.pow_le_mono_r; lia).
  assert (H2 : 0 < 2 ^ e) by (apply Z.pow_pos_nonneg; lia).
  replace (2 ^ 1024) with (2 ^ 53 * 2 ^ 971) by (rewrite <- Z.pow_add_r; reflexivity || lia).
  assert (0 <= Z.abs m) by lia.
  assert (0 < 2 ^ 971) by (apply Z.pow_pos_nonneg; lia).
  nia.
Qed.

(** C1, as the code does it: [current_frame] is [int(current_time * fps)].
    For an int [playedSeconds = t] and an int [f > 0] of at most 4300 digits
    (longer texts make [int] raise) the frame after
    [update_progress({"playedSeconds": t})] and [set_fps(str(f))] is
    [floor(t * f)]; for a float [t = m * 2^e >= 0] it is [floor(t * f)]
    whenever [m * f < 2^53] and [f < 2^53], i.e. when the float product is
    exact. *)
Theorem current_frame_after_progress_and_fps (st : State) (t : pyval) (f : Z) :
  0 < f -> exact_frame_product t f = true ->
  current_frame (set_fps (update_progress st (PDict [("playedSeconds", t)]))
                   (PyInt.decimal_string f))
  = Some (Qfloor (number_value t * inject_Z f)).
Proof.
  intros Hf Hex.
  assert (Hlt : f < 10 ^ 4300).
  { destruct t as [| |z|m e| | |]; simpl in Hex; try discriminate.
    - apply Z.ltb_lt in Hex. exact Hex.
    - apply andb_true_iff in Hex as [Hex H6].
      apply andb_true_iff in Hex as [_ H5]. apply Z.ltb_lt in H5.
      apply Z.lt_le_trans with (2 ^ 53); [exact H5|].
      apply Z.leb_le. vm_compute. reflexivity. }
  unfold set_fps. rewrite py_int_decimal_string by (split; [exact Hf|exact Hlt]).
  clear Hlt.
  replace (f <=? 0) with false by (symmetry; apply Z.leb_gt; lia).
  unfold update_progress. simpl py_getitem. cbv iota.
  unfold current_frame. cbn [current_time fps with_video_error with_fps with_current_time].
  destruct t as [| |z|m e| | |]; simpl in Hex; try discriminate.
  - f_equal. unfold Qfloor, Qmult, number_value, inject_Z. cbn [Qnum Qden].
    rewrite Pos.mul_1_r. now rewrite Z.div_1_r.
  - repeat match goal with H : (_ && _) = true |- _ => apply andb_true_iff in H as [H ?] end.
    repeat match goal with H : (_ <=? _) = true |- _ => apply Z.leb_le in H end.
    repeat match goal with H : (_ <? _) = true |- _ => apply Z.ltb_lt in H end.
    unfold PyFloat.of_int. rewrite round_ne_exact by lia.
    rewrite overflows_small by lia.
    unfold PyFloat.mul. rewrite Z.add_0_r.
    assert (0 <= m * f) by nia.
    rewrite round_ne_exact by lia. rewrite overflows_small by lia.
    f_equal. unfold number_value, PyFloat.trunc, PyFloat.to_Q.
    destruct (Z.leb_spec 0 e) as [He|He].
    + unfold Qfloor, inject_Z, Qmult. cbn [Qnum Qden].
      rewrite Pos.mul_1_r, Z.div_1_r. ring.
    + assert (Hp : 0 < 2 ^ (- e)) by (apply Z.pow_pos_nonneg; lia).
      unfold Qfloor, inject_Z, Qmult. cbn [Qnum Qden].
      rewrite Pos.mul_1_r, Z2Pos.id by exact Hp.
      apply Z.quot_div_nonneg; lia.
Qed.

Lemma current_frame_after_progress_and_fps_witness :
  0 < 30 /\ exact_frame_product (PFloat 3 (-1)) 30 = true /\
  current_frame (set_fps (update_progress init_state (PDict [("playedSeconds", PFloat 3 (-1))]))
                   (PyInt.decimal_string 30))
  = Some (Qfloor (number_value (PFloat 3 (-1)) * inject_Z 30)).
Proof.
  split; [lia|]. split; [reflexivity|].
  apply current_frame_after_progress_and_fps; [lia|reflexivity].
Defined.

(** Refutes C1 as stated: [t] the float nearest 1/3 (0.3333333333333333,
    that is 6004799503160661 * 2^-54) and [f = 3]: [t * 3] rounds to [1.0],
    so [current_frame] is 1 while [floor(t * 3) = 0]. *)
Lemma current_frame_rounds_product :
  current_frame (set_fps (update_progress init_state
                   (PDict [("playedSeconds", PFloat 6004799503160661 (-54))]))
                   (PyInt.decimal_string 3)) = Some 1 /\
  Qfloor (number_value (PFloat 6004799503160661 (-54)) * inject_Z 3) = 0.
Proof. split; vm_compute; reflexivity. Qed.

End Handlers.

(** * Further properties of the handlers, the page and the settings *)

Section UrlState.
Import PyStr AppState.

(** The two outcomes of [set_video_url]. *)
Lemma set_video_url_cases (st : State) (u : string) :
  (video_url (set_video_url st u) = "" /\ video_error (set_video_url st u) <> "") \/
  (video_url (set_video_url st u) = u /\ u <> "" /\ video_error (set_video_url st u) = "" /\
   exists r, UrlParse.urlparse u = inr r /\ UrlParse.scheme r <> "" /\
             UrlParse.netloc r <> "" /\ has_video_extension u = true).
Proof.
  unfold set_video_url, validate_video_url.
  destruct (String.eqb_spec u "") as [Hu|Hu]; [left; simpl; split; [reflexivity|discriminate]|].
  destruct (UrlParse.urlparse u) as [msg|r] eqn:Hp;
    [left; simpl; split; [reflexivity|discriminate]|].
  destruct (String.eqb_spec (UrlParse.scheme r) "") as [Hs|Hs];
    [left; simpl; split; [reflexivity|discriminate]|].
  destruct (String.eqb_spec (UrlParse.netloc r) "") as [Hn|Hn];
    [left; simpl; split; [reflexivity|discriminate]|].
  destruct (has_video_extension u) eqn:He;
    [|left; simpl; split; [reflexivity|discriminate]].
  right. simpl. repeat split; auto. exists r. auto.
Qed.

(** [set_video_url] sets [video_url] and [video_error] from [u] alone. *)
Lemma set_video_url_shape (st : State) (u : string) :
  set_video_url st u =
  mkState (video_url (set_video_url init_state u)) (video_error (set_video_url init_state u))
          (current_time st) (fps st).
Proof.
  destruct st as [vu ve t f].
  unfold set_video_url, validate_video_url.
  destruct (String.eqb u ""); [reflexivity|].
  destruct (UrlParse.urlparse u); [reflexivity|].
  destruct (negb _); [reflexivity|].
  destruct (negb (has_video_extension u)); reflexivity.
Qed.

(** X3.  [set_video_url] sets [video_url] and [video_error] to values that
    depend on the given URL only, not on the previous state, and calling
    it twice with the same URL is the same as calling it once. *)
Theorem set_video_url_forgets_previous (st1 st2 : State) (u : string) :
  video_url (set_video_url st1 u) = video_url (set_video_url st2 u) /\
  video_error (set_video_url st1 u) = video_error (set_video_url st2 u) /\
  set_video_url (set_video_url st1 u) u = set_video_url st1 u.
Proof.
  rewrite (set_video_url_shape st1), (set_video_url_shape st2). simpl.
  split; [reflexivity|]. split; [reflexivity|].
  rewrite (set_video_url_shape (mkState _ _ _ _)). reflexivity.
Qed.

(** X4.  After [set_video_url], [video_error] is empty exactly when a URL
    is stored ([video_url <> ""]). *)
Theorem set_video_url_error_iff_no_url (st : State) (u : string) :
  video_error (set_video_url st u) = "" <-> video_url (set_video_url st u) <> "".
Proof.
  destruct (set_video_url_cases st u) as [(Hu & He)|(Hu & Hne & He & _)];
    rewrite Hu; split; intros H; try contradiction; auto.
Qed.

Lemma step_fps_pos (st : State) (ev : event) : 0 < fps st -> 0 < fps (step st ev).
Proof.
  intros H. destruct ev as [u|p|v]; simpl.
  - rewrite set_video_url_shape. exact H.
  - unfold update_progress. destruct (py_getitem p "playedSeconds"); exact H.
  - unfold set_fps. destruct (PyInt.py_int v) as [n|]; [|exact H].
    destruct (Z.leb_spec n 0); simpl; [exact H|lia].
Qed.

Lemma run_fps_pos_from (evs : list event) : forall st, 0 < fps st -> 0 < fps (run st evs).
Proof.
  induction evs as [|ev evs IH]; intros st H; [exact H|].
  unfold run. simpl fold_left. apply IH, step_fps_pos, H.
Qed.

(** X1.  [fps] stays a positive int in every state reached from the class
    defaults by URL, progress and FPS events. *)
Theorem run_fps_positive (evs : list event) : 0 < fps (run init_state evs).
Proof. apply run_fps_pos_from. reflexivity. Qed.

Lemma step_video_url (st : State) (ev : event) :
  match ev with
  | SetVideoUrl u => video_url (step st ev) = video_url (set_video_url st u)
  | _ => video_url (step st ev) = video_url st
  end.
Proof.
  destruct ev as [u|p|v]; simpl; [reflexivity| |].
  - unfold update_progress. destruct (py_getitem p "playedSeconds"); reflexivity.
  - unfold set_fps. destruct (PyInt.py_int v) as [n|]; [|reflexivity].
    destruct (n <=? 0); reflexivity.
Qed.

Lemma run_video_url_from (evs : list event) : forall st,
  (video_url st = "" \/ exists r, UrlParse.urlparse (video_url st) = inr r /\
     UrlParse.scheme r <> "" /\ UrlParse.netloc r <> "" /\
     has_video_extension (video_url st) = true) ->
  let u := video_url (run st evs) in
  u = "" \/ exists r, UrlParse.urlparse u = inr r /\ UrlParse.scheme r <> "" /\
                      UrlParse.netloc r <> "" /\ has_video_extension u = true.
Proof.
  induction evs as [|ev evs IH]; intros st H; [exact H|].
  unfold run. simpl fold_left. apply IH.
  pose proof (step_video_url st ev) as Hs.
  destruct ev as [u|p|v]; rewrite Hs; [|exact H|exact H].
  destruct (set_video_url_cases st u) as [(Hu & _)|(Hu & _ & _ & Hok)]; rewrite Hu; auto.
Qed.

(** X2.  In every state reached from the class defaults, [video_url] is
    either empty or a URL that [validate_video_url] accepts: it parses,
    with a non-empty scheme and netloc, and ends in a video extension. *)
Theorem run_video_url_accepted (evs : list event) :
  let u := video_url (run init_state evs) in
  u = "" \/ exists r, UrlParse.urlparse u = inr r /\ UrlParse.scheme r <> "" /\
                      UrlParse.netloc r <> "" /\ has_video_extension u = true.
Proof. apply run_video_url_from. left. reflexivity. Qed.

End UrlState.

Section PageProps.
Import PyStr AppState Page.

Lemma in_create_error_message (t e : string) :
  In (ErrorBox e) (create_error_message t) <-> t <> "" /\ e = t.
Proof.
  unfold create_error_message. destruct (String.eqb_spec t "") as [->|Ht]; simpl.
  - split; [contradiction|intros [H _]; now apply H].
  - split; [intros [H|[]]; injection H as ->; auto|intros [_ ->]; auto].
Qed.

Lemma main_content_error_box (st : State) (e : string) :
  In (ErrorBox e) (create_main_content st) <->
  video_url st <> "" /\ video_error st <> "" /\ e = video_error st.
Proof.
  unfold create_main_content. destruct (String.eqb_spec (video_url st) "") as [Hu|Hu].
  - simpl. split; [intros [H|[]]; discriminate|intros [H _]; contradiction].
  - simpl. unfold create_video_player.
    rewrite <- (in_create_error_message (video_error st) e).
    simpl. rewrite !in_app_iff. simpl.
    split; intros H.
    + split; [exact Hu|].
      decompose [or] H; try discriminate; try assumption; contradiction.
    + destruct H as [_ H]. right. right. left. left. exact H.
Qed.

(** X7.  The page renders an error box for [video_error] exactly when a
    URL is stored and [video_error] is not empty: the box sits inside
    [create_video_player], under [rx.cond(State.video_url != "")]. *)
Theorem error_box_only_with_url (st : State) (e : string) :
  In (ErrorBox e) (create_main_content st) <->
  video_url st <> "" /\ video_error st <> "" /\ e = video_error st.
Proof. apply main_content_error_box. Qed.

(** X8.  Right after [set_video_url], whatever the URL, the page shows no
    error box: a refused URL sets [video_url = ""], which hides the box
    holding the message. *)
Theorem set_video_url_error_never_shown (st : State) (u e : string) :
  ~ In (ErrorBox e) (create_main_content (set_video_url st u)).
Proof.
  rewrite main_content_error_box. intros (Hu & He & _).
  destruct (set_video_url_cases st u) as [(H1 & _)|(_ & _ & H2 & _)]; contradiction.
Qed.





End PageProps.

Section UrlText.
Import PyStr AppState.










End UrlText.

Section IntRoundTrip.
Import PyStr PyInt AppState.

Lemma decimal_string_head (m : Z) : 0 < m < 10 ^ 4300 ->
  exists c r, decimal_string m = String c r /\ is_digit c = true.
Proof.
  intros Hm. unfold decimal_string.
  replace (Z.abs m) with m by lia.
  replace (m <? 0) with false by (symmetry; apply Z.ltb_ge; lia).
  assert (Hbound : 0 <= m < 10 ^ Z.of_nat (S (Z.to_nat (Z.log2 m)))).
  { split; [lia|]. rewrite Nat2Z.inj_succ, Z2Nat.id by (apply Z.log2_nonneg).
    destruct (Z.log2_spec m) as [_ Hup]; [lia|].
    eapply Z.lt_le_trans; [exact Hup|]. apply Z.pow_le_mono_l. lia. }
  destruct (digits_aux_spec _ m [] Hbound) as (ds & Heq & Hne & Hall & _).
  rewrite Heq, app_nil_r. destruct ds as [|c r]; [contradiction|].
  exists c, (string_of_list_ascii r). split; [reflexivity|exact (Forall_inv Hall)].
Qed.

(** A minus sign in front of a digit negates what [int] reads. *)
Lemma py_int_minus (c : ascii) (r : string) : is_digit c = true ->
  py_int (String "-" (String c r)) = option_map Z.opp (py_int (String c r)).
Proof.
  intros Hc. unfold py_int. simpl list_ascii_of_string.
  simpl transform. destruct (transform (list_ascii_of_string r)) as [l|]; [|reflexivity].
  replace (code c <? 127) with true by (symmetry; apply Z.ltb_lt; now apply digit_code_low).
  replace (code "-" <? 127) with true by reflexivity.
  simpl skip_while. rewrite (digit_not_space c Hc).
  replace (is_c_space "-") with false by reflexivity.
  unfold parse_sign.
  destruct (Ascii.eqb_spec c "+") as [->|Hp]; [discriminate|].
  destruct (Ascii.eqb_spec c "-") as [->|Hm]; [discriminate|].
  replace (Ascii.eqb "-" "+") with false by reflexivity.
  replace (Ascii.eqb "-" "-") with true by reflexivity.
  cbv beta iota zeta.
  destruct (long_from_string_base (c :: l)) as [v|]; [|reflexivity].
  cbn [option_map]. f_equal. lia.
Qed.

(** [int(str(n))] is [n] for every int of at most [max_str_digits] digits. *)
Lemma py_int_decimal_string_all (n : Z) :
  - 10 ^ 4300 < n < 10 ^ 4300 -> py_int (decimal_string n) = Some n.
Proof.
  intros [Hlo Hhi]. destruct (Z.lt_trichotomy n 0) as [Hlt|[->|Hgt]].
  - assert (Hpos : 0 < - n < 10 ^ 4300).
    { clear Hhi. revert Hlo. generalize (10 ^ 4300) as B. intros B Hlo. lia. }
    clear Hlo Hhi.
    destruct (decimal_string_head (- n) Hpos) as (c & r & Hds & Hc).
    assert (Hneg : decimal_string n = String "-" (decimal_string (- n))).
    { clear Hpos Hds. unfold decimal_string. rewrite Z.abs_opp.
      replace (n <? 0) with true by (symmetry; apply Z.ltb_lt; exact Hlt).
      replace (- n <? 0) with false by (symmetry; apply Z.ltb_ge; lia). reflexivity. }
    rewrite Hneg, Hds, (py_int_minus c r Hc), <- Hds, py_int_decimal_string by exact Hpos.
    cbn [option_map]. now rewrite Z.opp_involutive.
  - reflexivity.
  - apply py_int_decimal_string. split; [exact Hgt|exact Hhi].
Qed.

(** X9.  [set_fps(str(n))] for an int [n] of at most 4300 digits: a
    positive [n] becomes [fps] and clears [video_error]; zero or a negative
    [n] leaves [fps] and reports "FPS must be greater than 0". *)
Theorem set_fps_decimal_string (st : State) (n : Z) :
  - 10 ^ 4300 < n < 10 ^ 4300 ->
  set_fps st (decimal_string n) =
  if 0 <? n then mkState (video_url st) "" (current_time st) n
  else mkState (video_url st) "FPS must be greater than 0" (current_time st) (fps st).
Proof.
  intros Hn. unfold set_fps. rewrite py_int_decimal_string_all by exact Hn.
  destruct (Z.ltb_spec 0 n); [replace (n <=? 0) with false by (symmetry; apply Z.leb_gt; lia)
                             |replace (n <=? 0) with true by (symmetry; apply Z.leb_le; lia)];
    reflexivity.
Qed.

Lemma set_fps_decimal_string_witness :
  - 10 ^ 4300 < -5 < 10 ^ 4300 /\
  set_fps init_state (decimal_string (-5)) =
  mkState "" "FPS must be greater than 0" (PInt 0) 60.
Proof.
  split; [split; apply Z.ltb_lt; vm_compute; reflexivity|].
  apply (set_fps_decimal_string init_state (-5)).
  split; apply Z.ltb_lt; vm_compute; reflexivity.
Defined.

End IntRoundTrip.

Section Settings.
Import PyStr Config.

Lemma getenv_or_nonempty (env : environ) (k rest : string) :
  rest <> "" -> getenv_or env k rest <> "".
Proof.
  intros H. unfold getenv_or. destruct (getenv env k) as [v|]; [|exact H].
  destruct (String.eqb_spec v ""); assumption.
Qed.

(** X10.  [FRONTEND_URL] starts with "http" for every environment: the
    fallback chain ends in a non-empty default and [https://] is put in
    front of a value without that prefix. *)
Theorem frontend_url_starts_with_http (env : environ) :
  startswith (frontend_url env) "http" = true.
Proof.
  unfold frontend_url.
  match goal with |- context [getenv_or env "FRONTEND_DEPLOY_URL" ?r] =>
    assert (Hne : getenv_or env "FRONTEND_DEPLOY_URL" r <> "") by
      (repeat (apply getenv_or_nonempty); discriminate);
    destruct (getenv_or env "FRONTEND_DEPLOY_URL" r) as [|c s] eqn:E
  end; [contradiction|].
  destruct (startswith (String c s) "http") eqn:Hs; [exact Hs|reflexivity].
Qed.

Lemma list_Z_eqb_eq (a b : list Z) : list_Z_eqb a b = true <-> a = b.
Proof.
  revert b; induction a as [|x a IH]; intros [|y b]; simpl;
    try (split; congruence).
  rewrite andb_true_iff, Z.eqb_eq, IH. split; [intros [-> ->]; reflexivity|].
  intros H. injection H as -> ->. auto.
Qed.

Lemma cp_upper_idem_all :
  forallb (fun n => list_Z_eqb (upper_cps (cp_upper (Z.of_nat n))) (cp_upper (Z.of_nat n)))
          (seq 0 256) = true.
Proof. vm_compute. reflexivity. Qed.

Lemma cp_upper_no_lower_n_all :
  forallb (fun n => negb (existsb (Z.eqb 110) (cp_upper (Z.of_nat n)))) (seq 0 256) = true.
Proof. vm_compute. reflexivity. Qed.

Lemma code_lt_256 (c : ascii) : 0 <= code c < 256.
Proof. unfold code. pose proof (nat_ascii_bounded c). lia. Qed.

Lemma code_in_seq (c : ascii) : In (Z.to_nat (code c)) (seq 0 256).
Proof. apply in_seq. pose proof (code_lt_256 c). lia. Qed.

Lemma upper_cps_idem (s : string) : upper_cps (upper_cps (cps s)) = upper_cps (cps s).
Proof.
  induction s as [|c r IH]; [reflexivity|].
  unfold upper_cps in *. cbn [cps list_ascii_of_string List.map flat_map] in *.
  rewrite flat_map_app. f_equal; [|exact IH].
  pose proof cp_upper_idem_all as H. rewrite forallb_forall in H.
  specialize (H _ (code_in_seq c)). rewrite Z2Nat.id in H by apply (code_lt_256 c).
  now apply list_Z_eqb_eq in H.
Qed.

Lemma upper_cps_no_n (s : string) : ~ In 110 (upper_cps (cps s)).
Proof.
  induction s as [|c r IH]; [simpl; auto|].
  unfold upper_cps in *. cbn [cps list_ascii_of_string List.map flat_map] in *.
  rewrite in_app_iff. intros [H|H]; [|exact (IH H)].
  pose proof cp_upper_no_lower_n_all as Hall. rewrite forallb_forall in Hall.
  specialize (Hall _ (code_in_seq c)). rewrite Z2Nat.id in Hall by apply (code_lt_256 c).
  apply negb_true_iff in Hall. rewrite <- not_true_iff_false, existsb_exists in Hall.
  apply Hall. exists 110. split; [exact H|reflexivity].
Qed.

Lemma upper_env_mode_not_env_dev (env : environ) :
  list_Z_eqb (upper_cps (reflex_env_mode env)) (cps "Env.DEV") = false.
Proof.
  unfold reflex_env_mode. rewrite upper_cps_idem.
  apply not_true_iff_false. rewrite list_Z_eqb_eq. intros H.
  apply (upper_cps_no_n (getenv_d env "APP_ENV" "DEV")). rewrite H. simpl. tauto.
Qed.

(** X11.  The entry "Env.DEV" of the list [LOG_LEVEL]'s default tests
    against is never matched: [REFLEX_ENV_MODE.upper()] has no lower-case
    letter, for every value of [APP_ENV]. *)
Theorem env_dev_entry_never_matches (env : environ) :
  list_Z_eqb (upper_cps (reflex_env_mode env)) (cps "Env.DEV") = false.
Proof. apply upper_env_mode_not_env_dev. Qed.

(** X12.  Without a [LOG_LEVEL] variable, [LOG_LEVEL] is "DEBUG" when
    [REFLEX_ENV_MODE] is "DEV" or "TEST" and "INFO" otherwise. *)
Theorem log_level_default (env : environ) :
  getenv env "LOG_LEVEL" = None ->
  log_level env =
  cps (if list_Z_eqb (reflex_env_mode env) (cps "DEV")
          || list_Z_eqb (reflex_env_mode env) (cps "TEST") then "DEBUG" else "INFO").
Proof.
  intros H. pose proof (upper_env_mode_not_env_dev env) as Hd.
  unfold log_level, getenv_d at 1. rewrite H.
  unfold reflex_env_mode in *. rewrite upper_cps_idem in *.
  cbn [existsb]. rewrite Hd, !orb_false_r.
  destruct (_ || _); reflexivity.
Qed.

Lemma log_level_default_witness :
  getenv [("APP_ENV", "test")] "LOG_LEVEL" = None /\
  log_level [("APP_ENV", "test")] = cps "DEBUG".
Proof.
  split; [reflexivity|]. rewrite (log_level_default [("APP_ENV", "test")] eq_refl).
  reflexivity.
Defined.

Lemma concat_cons_char (sep : string) (d : ascii) (w : string) (ws : list string) :
  String.concat sep (String d w :: ws) = String d (String.concat sep (w :: ws)).
Proof. destruct ws; reflexivity. Qed.

(** [",".join(s.split(","))] is [s], and no item holds a comma. *)
Lemma split_comma_spec (s : string) :
  String.concat "," (split "," s) = s /\ Forall (fun w => contains "," w = false) (split "," s) /\
  split "," s <> [].
Proof.
  induction s as [|d r (IHc & IHf & IHne)]; [split; [reflexivity|split; [repeat constructor|discriminate]]|].
  change (split "," (String d r)) with
    (if Ascii.eqb "," d then "" :: split "," r
     else match split "," r with w :: ws => String d w :: ws | [] => [String d ""] end).
  destruct (Ascii.eqb_spec "," d) as [<-|Hd].
  - destruct (split "," r) as [|w ws]; [contradiction|].
    repeat split; [rewrite <- IHc; reflexivity|now constructor|discriminate].
  - destruct (split "," r) as [|w ws] eqn:E; [contradiction|].
    repeat split.
    + rewrite concat_cons_char, IHc. reflexivity.
    + inversion IHf as [|? ? Hw Hws]; subst. constructor; [|exact Hws].
      change (Ascii.eqb "," d || contains "," w = false).
      rewrite Hw, orb_false_r. apply Ascii.eqb_neq. exact Hd.
    + discriminate.
Qed.

(** X13.  [ADMIN_USER_EMAILS] joined with "," gives back the variable (""
    when unset), no item contains a comma, and the list is [[""]] exactly
    when the variable is unset or empty. *)
Theorem admin_user_emails_split (env : environ) :
  String.concat "," (admin_user_emails env) = getenv_d env "ADMIN_USER_EMAILS" "" /\
  Forall (fun w => contains "," w = false) (admin_user_emails env) /\
  (admin_user_emails env = [""] <-> getenv_d env "ADMIN_USER_EMAILS" "" = "").
Proof.
  unfold admin_user_emails.
  destruct (split_comma_spec (getenv_d env "ADMIN_USER_EMAILS" "")) as (Hc & Hf & _).
  repeat split; [exact Hc|exact Hf| |].
  - intros H. rewrite <- Hc, H. reflexivity.
  - intros H. rewrite H. reflexivity.
Qed.

(** X14.  [CLERK_AUTHORIZED_DOMAINS] is the comma-separated items of its
    variable (default "localhost:3000,*") followed by the raw value of the
    [FRONTEND_URL] variable, "" when unset. *)
Theorem clerk_authorized_domains_shape (env : environ) :
  exists ds, clerk_authorized_domains env = app ds [getenv_d env "FRONTEND_URL" ""] /\
    String.concat "," ds = getenv_d env "CLERK_AUTHORIZED_DOMAINS" "localhost:3000,*" /\
    Forall (fun w => contains "," w = false) ds.
Proof.
  destruct (split_comma_spec (getenv_d env "CLERK_AUTHORIZED_DOMAINS" "localhost:3000,*"))
    as (Hc & Hf & _).
  eexists. split; [reflexivity|]. split; [exact Hc|exact Hf].
Qed.

(** X15.  In "DEV" mode, when computing [DB_CONN_URI] does not raise,
    [DATABASE_URL] is [REFLEX_DB_URL] if set (even to "") and
    "sqlite:///app.db" otherwise. *)
Theorem database_url_dev (fmt : string -> string -> string + string) (env : environ) :
  list_Z_eqb (reflex_env_mode env) (cps "DEV") = true ->
  (forall pw, getenv env "DB_PASSWORD" = Some pw -> pw <> "" ->
     exists v, fmt (getenv_d env "REFLEX_DB_URL" "") pw = inr v) ->
  database_url fmt env = inr (getenv_d env "REFLEX_DB_URL" "sqlite:///app.db").
Proof.
  intros Hdev Hfmt. unfold database_url. rewrite Hdev.
  destruct (getenv env "DB_PASSWORD") as [pw|]; [|reflexivity].
  destruct (String.eqb_spec pw "") as [->|Hpw]; [reflexivity|].
  destruct (Hfmt pw eq_refl Hpw) as [v ->]. reflexivity.
Qed.

Lemma database_url_dev_witness :
  list_Z_eqb (reflex_env_mode [("APP_ENV", "dev"); ("DB_PASSWORD", "pw")]) (cps "DEV") = true /\
  database_url (fun s _ => inr s) [("APP_ENV", "dev"); ("DB_PASSWORD", "pw")] =
    inr "sqlite:///app.db".
Proof.
  split; [reflexivity|].
  apply (database_url_dev (fun s _ => inr s) [("APP_ENV", "dev"); ("DB_PASSWORD", "pw")]).
  - reflexivity.
  - intros pw _ _. eexists. reflexivity.
Defined.

(** X16.  Outside "DEV" mode and without a (non-empty) [DB_PASSWORD],
    [DATABASE_URL] is [REFLEX_DB_URL], or "" when unset: there is no SQLite
    fallback. *)
Theorem database_url_no_password (fmt : string -> string -> string + string) (env : environ) :
  list_Z_eqb (reflex_env_mode env) (cps "DEV") = false ->
  getenv env "DB_PASSWORD" = None \/ getenv env "DB_PASSWORD" = Some "" ->
  database_url fmt env = inr (getenv_d env "REFLEX_DB_URL" "").
Proof.
  intros Hdev Hpw. unfold database_url. rewrite Hdev.
  destruct Hpw as [-> | ->]; reflexivity.
Qed.

Lemma database_url_no_password_witness :
  list_Z_eqb (reflex_env_mode [("APP_ENV", "production")]) (cps "DEV") = false /\
  (getenv [("APP_ENV", "production")] "DB_PASSWORD" = None \/
   getenv [("APP_ENV", "production")] "DB_PASSWORD" = Some "") /\
  database_url (fun s _ => inr s) [("APP_ENV", "production")] = inr "".
Proof.
  split; [reflexivity|]. split; [left; reflexivity|].
  apply (database_url_no_password (fun s _ => inr s) [("APP_ENV", "production")]).
  - reflexivity.
  - left. reflexivity.
Defined.

Lemma string_app_assoc (a b c : string) : (a ++ b) ++ c = a ++ (b ++ c).
Proof. induction a as [|x a IH]; simpl; [reflexivity|now rewrite IH]. Qed.

Lemma prefix_app (sep x : string) : String.prefix sep (sep ++ x) = true.
Proof.
  induction sep as [|a sep IH]; [destruct x; reflexivity|]. simpl.
  destruct (ascii_dec a a) as [_|n]; [exact IH|contradiction].
Qed.

Lemma no_occurrence_empty (sep : string) : sep <> "" -> forall a b, "" <> a ++ sep ++ b.
Proof.
  intros Hs [|c a] b H; [destruct sep; [contradiction|discriminate]|discriminate].
Qed.

Lemma before_first_spec (sep : string) (Hsep : sep <> "") (s : string) :
  exists rest, s = before_first sep s ++ rest /\
    (rest = "" \/ String.prefix sep rest = true) /\
    forall a b, before_first sep s <> a ++ sep ++ b.
Proof.
  induction s as [|c r (rest & Hr & Hrest & Hno)].
  - assert (H0 : before_first sep "" = "").
    { change (before_first sep "") with (if String.prefix sep "" then "" else "").
      destruct (String.prefix sep ""); reflexivity. }
    rewrite H0. exists "". repeat split; auto. apply no_occurrence_empty, Hsep.
  - change (before_first sep (String c r)) with
      (if String.prefix sep (String c r) then "" else String c (before_first sep r)).
    destruct (String.prefix sep (String c r)) eqn:P.
    + exists (String c r). repeat split; auto. apply no_occurrence_empty, Hsep.
    + exists rest. split; [simpl; f_equal; exact Hr|]. split; [exact Hrest|].
      intros [|c' a] b H; simpl in H.
      * assert (Hs : String c r = sep ++ (b ++ rest)).
        { rewrite Hr, <- string_app_assoc, <- H. reflexivity. }
        rewrite Hs, prefix_app in P. discriminate.
      * injection H as _ H. exact (Hno a b H).
Qed.

(** X17.  The database line rxconfig.py prints shows the URL only up to
    its first "://": the shown part is a prefix of the URL with no "://" in
    it, followed in the URL by "://" or by nothing (then the whole URL is
    shown). *)
Theorem db_log_line_hides (url : string) :
  exists p rest,
    db_log_line url = "Configuring Reflex with database URL: " ++ p ++ "://<hidden>" /\
    url = p ++ rest /\ (rest = "" \/ String.prefix "://" rest = true) /\
    forall a b, p <> a ++ "://" ++ b.
Proof.
  destruct (before_first_spec "://" ltac:(discriminate) url) as (rest & H1 & H2 & H3).
  exists (before_first "://" url), rest. repeat split; auto.
Qed.

End Settings.
